(** * Isvaryam chatbot: dialogue routing and session memory

    A shallow embedding of [src/app.py] (the Flask + TinyLlama chatbot):
    the keyword intent matcher ([detect_intent], [handle_intents]), the
    generative helper ([llama_chat]) and the request handler ([chatbot])
    with its process-wide [conversation_context] dictionary.

    Text is [string], the UTF-8 bytes of the Python [str].  [str.strip]
    removes every character Python counts as white space, in its UTF-8
    form; [str.lower] and the substring test [in] are given on the ASCII
    range, other characters are carried along unchanged.  Exceptions are
    an error value; the mutable module
    state and the calls made to the language model are threaded through a
    small state-and-error monad. *)

From Stdlib Require Import Ascii.
From Stdlib Require String.
From stdpp Require Import base option list gmap strings.

(** ** Python text primitives *)

Module Py.

(** [c.lower()] for one character: [A]..[Z] move to [a]..[z]. *)
Definition lower_char (c : ascii) : ascii :=
  let n := nat_of_ascii c in
  if (65 <=? n)%nat && (n <=? 90)%nat then ascii_of_nat (n + 32) else c.

(** [s.lower()] *)
Fixpoint lower (s : string) : string :=
  match s with
  | EmptyString => EmptyString
  | String c s' => String (lower_char c) (lower s')
  end.

(** The string made of the given bytes. *)
Definition bytes (l : list nat) : string :=
  fold_right (λ n s, String (ascii_of_nat n) s) EmptyString l.

(** The characters [c] with [c.isspace()], each in UTF-8: U+0009 to
    U+000D, U+001C to U+001F, U+0020, U+0085, U+00A0, U+1680, U+2000 to
    U+200A, U+2028, U+2029, U+202F, U+205F and U+3000. *)
Definition whitespace : list string :=
  bytes <$>
    [[9]; [10]; [11]; [12]; [13]; [28]; [29]; [30]; [31]; [32];
     [194; 133]; [194; 160]; [225; 154; 128];
     [226; 128; 128]; [226; 128; 129]; [226; 128; 130]; [226; 128; 131];
     [226; 128; 132]; [226; 128; 133]; [226; 128; 134]; [226; 128; 135];
     [226; 128; 136]; [226; 128; 137]; [226; 128; 138];
     [226; 128; 168]; [226; 128; 169]; [226; 128; 175];
     [226; 129; 159]; [227; 128; 128]].

(** [s] without the prefix [p], when [s] begins with [p]. *)
Fixpoint removeprefix (p s : string) : option string :=
  match p with
  | EmptyString => Some s
  | String a p' =>
      match s with
      | String b s' => if ascii_dec a b then removeprefix p' s' else None
      | EmptyString => None
      end
  end.

(** [s] without its first character, when that is one of [tokens]. *)
Definition drop_token (tokens : list string) (s : string) : option string :=
  head (omap (λ w, removeprefix w s) tokens).

(** Characters of [tokens] are taken off the front of [s] as long as
    there is one; [fuel] bounds the number of steps. *)
Fixpoint lstrip_go (tokens : list string) (fuel : nat) (s : string) : string :=
  match fuel with
  | 0 => s
  | S fuel' =>
      match drop_token tokens s with
      | Some rest => lstrip_go tokens fuel' rest
      | None => s
      end
  end.

(** [s[::-1]] on the bytes. *)
Fixpoint reversed (s : string) : string :=
  match s with
  | EmptyString => EmptyString
  | String c s' => reversed s' +:+ String c EmptyString
  end.

(** [s.lstrip()] *)
Definition lstrip (s : string) : string :=
  lstrip_go whitespace (String.length s) s.

(** [s.rstrip()]: the same from the other end. *)
Definition rstrip (s : string) : string :=
  reversed (lstrip_go (reversed <$> whitespace) (String.length s) (reversed s)).

(** [s.strip()] *)
Definition strip (s : string) : string := rstrip (lstrip s).

(** A concatenation of strings of [tokens]. *)
Inductive star (tokens : list string) : string → Prop :=
| star_nil : star tokens EmptyString
| star_cons w s : w ∈ tokens → star tokens s → star tokens (w +:+ s).

(** A run of white space characters. *)
Definition spaces : string → Prop := star whitespace.

(** [s.startswith(p)] *)
Fixpoint startswith (p s : string) : bool :=
  match p, s with
  | EmptyString, _ => true
  | String a p', String b s' => if ascii_dec a b then startswith p' s' else false
  | String _ _, EmptyString => false
  end.

(** [sub in s]: [sub] occurs in [s] at some offset. *)
Fixpoint contains (sub s : string) : bool :=
  startswith sub s ||
  match s with
  | EmptyString => false
  | String _ s' => contains sub s'
  end.

(** Truthiness of an optional string: [None] and [""] are falsy. *)
Definition truthy (o : option string) : bool :=
  match o with
  | Some (String _ _) => true
  | _ => false
  end.

End Py.

(** ** Intent detection *)

(** The tuple the generator expression of [detect_intent] ranges over. *)
Definition greet_keywords : list string := ["hi"; "hello"; "hey"].

Definition detect_intent (text : string) : option string :=
  let t := Py.lower text in
  if existsb (fun greet => Py.contains greet t) greet_keywords then Some "greet"
  else if Py.contains "price" t then Some "price"
  else None.

(** The salutation chosen from [datetime.now().hour]. *)
Definition salutation (hour : nat) : string :=
  if (hour <? 12)%nat then "Good morning ☀️"
  else if (hour <? 17)%nat then "Good afternoon 🌤️"
  else "Good evening 🌙".

(** U+00A0, the no-break space that follows the salutation in the
    greeting. *)
Definition nbsp : string := Py.bytes [194; 160].

(** [hour] is the value [datetime.now().hour] reads during the call. *)
Definition handle_intents (hour : nat) (text user_id : string) : option string :=
  let intent := detect_intent text in
  if decide (intent = Some "greet") then
    let sal := salutation hour in
    Some (sal +:+ nbsp +:+ "I'm Isvaryam's assistant. How can I help you?")
  else if decide (intent = Some "price") then
    Some "Our price list is coming right up! (demo reply)"
  else None.

(** ** Chat messages, the model boundary and the process state *)

(** A [ChatMessage] dictionary: [{"role": ..., "content": ...}]. *)
Record ChatMessage := { role : string; content : string }.

(** [{"role": "user", "content": c}] and its assistant counterpart. *)
Definition user_entry (c : string) : ChatMessage :=
  {| role := "user"; content := c |}.
Definition assistant_entry (c : string) : ChatMessage :=
  {| role := "assistant"; content := c |}.

(** The keyword arguments of [llm.create_chat_completion]. *)
Record completion_request := { messages : list ChatMessage; stream : bool }.

(** The part of the completion dictionary [llama_chat] reads:
    [res["choices"][i]["message"]]. *)
Record choice := { message : ChatMessage }.
Record completion := { choices : list choice }.

Inductive exn :=
| IndexError
| LlmError (what : string).

Inductive result (A : Type) :=
| Ok (a : A)
| Raise (e : exn).
Arguments Ok {A} a.
Arguments Raise {A} e.

(** A session dictionary maps a key (only ["history"] is ever used) to a
    list of messages; [conversation_context] is the [defaultdict(dict)]
    from user id to session dictionary.  [llm_calls] records, oldest
    first, the requests passed to the model so far. *)
Record world := {
  conversation_context : gmap string (gmap string (list ChatMessage));
  llm_calls : list completion_request
}.

Definition set_context (f : gmap string (gmap string (list ChatMessage)) →
                            gmap string (gmap string (list ChatMessage)))
    (w : world) : world :=
  {| conversation_context := f (conversation_context w);
     llm_calls := llm_calls w |}.

Definition initial_world : world :=
  {| conversation_context := ∅; llm_calls := [] |}.

(** State-and-error monad: a raised exception keeps the state reached. *)
Definition M (A : Type) : Type := world → result A * world.

Definition ret {A} (a : A) : M A := λ w, (Ok a, w).
Definition raise {A} (e : exn) : M A := λ w, (Raise e, w).
Definition bind {A B} (m : M A) (k : A → M B) : M B :=
  λ w, match m w with
       | (Ok a, w') => k a w'
       | (Raise e, w') => (Raise e, w')
       end.

Declare Scope py_scope.
Delimit Scope py_scope with py.
Notation "x <- m ;; k" := (bind m (λ x, k))
  (at level 100, m at next level, right associativity) : py_scope.
Notation "m ;;; k" := (bind m (λ _, k))
  (at level 100, right associativity) : py_scope.

(** [l[-n:]]: the last [n] elements, the whole list when it is shorter. *)
Definition slice_last {A} (n : nat) (l : list A) : list A :=
  drop (length l - n) l.

(** [l[0]] *)
Definition getitem0 {A} (l : list A) : M A :=
  match l with
  | x :: _ => ret x
  | [] => raise IndexError
  end.

(** [conversation_context[user_id]]: the [defaultdict] stores and returns
    a new empty dictionary for a key it does not have. *)
Definition context_getitem (user_id : string) : M (gmap string (list ChatMessage)) :=
  λ w, match conversation_context w !! user_id with
       | Some d => (Ok d, w)
       | None => (Ok ∅, set_context (insert user_id ∅) w)
       end.

(** [conversation_context[user_id][key] = v], also the effect of a
    mutation in place of the list stored under [key]. *)
Definition session_setitem (user_id key : string) (v : list ChatMessage) : M unit :=
  (d <- context_getitem user_id ;;
   λ w, (Ok tt, set_context (insert user_id (<[key := v]> d)) w))%py.

(** What [conversation_context[user_id].get("history", [])] would read,
    without the [defaultdict] insertion. *)
Definition history_of (w : world) (user_id : string) : list ChatMessage :=
  default [] (conversation_context w !! user_id ≫= λ d, d !! "history").

(** The JSON body of a request to [/chatbot]. *)
Record request := { json_message : option string; json_user_id : option string }.

Section Handler.

(** The model behind [llm.create_chat_completion]: its answer to a
    request, which may depend on everything it was asked before.  An
    exception inside the model is [Raise]. *)
Variable create_chat_completion :
  list completion_request → completion_request → result completion.

Definition llm_create_chat_completion (rq : completion_request) : M completion :=
  λ w, (create_chat_completion (llm_calls w) rq,
        {| conversation_context := conversation_context w;
           llm_calls := llm_calls w ++ [rq] |}).

Definition llama_chat (user_msg : string) (history : list ChatMessage) : M string :=
  (let messages := history ++ [user_entry user_msg] in
   res <- llm_create_chat_completion {| messages := messages; stream := false |} ;;
   c <- getitem0 (choices res) ;;
   ret (Py.strip (content (message c))))%py.

(** The body of the [/chatbot] route; the value returned is the
    [response] field handed to [jsonify]. *)
Definition chatbot (hour : nat) (rq : request) : M string :=
  (let user_msg := default "" (json_message rq) in
   let user_id := default "anon" (json_user_id rq) in
   (* 1. keyword intents *)
   let intent_reply := handle_intents hour user_msg user_id in
   if Py.truthy intent_reply then ret (default "" intent_reply)
   else
     (* 2. fallback *)
     session <- context_getitem user_id ;;
     let stored := session !! "history" in
     let hist := default [] stored in
     llama_reply <- llama_chat user_msg hist ;;
     (* hist.extend([...]): when [hist] is the stored list, the
        dictionary sees the two new entries at once *)
     let hist' := hist ++ [user_entry user_msg; assistant_entry llama_reply] in
     (if stored is Some _ then session_setitem user_id "history" hist' else ret tt) ;;;
     session_setitem user_id "history" (slice_last 10 hist') ;;;
     ret llama_reply)%py.

(** Requests handled one after the other, each with the hour read
    while it is served; a request that raises leaves the state it
    reached to the next one. *)
Fixpoint serve (events : list (nat * request)) (w : world) : world :=
  match events with
  | [] => w
  | (hour, rq) :: rest => serve rest (snd (chatbot hour rq w))
  end.

End Handler.

(** ** Vocabulary of the statements *)

(** The message and the user id the handler reads from a request. *)
Definition message_of (rq : request) : string := default "" (json_message rq).
Definition user_of (rq : request) : string := default "anon" (json_user_id rq).

(** The request the fallback path sends to the model from [w]. *)
Definition fallback_prompt (w : world) (rq : request) : completion_request :=
  {| messages := history_of w (user_of rq) ++ [user_entry (message_of rq)];
     stream := false |}.

(** The state once the session dictionary of the user exists and the
    model has been asked. *)
Definition asked (w : world) (rq : request) : world :=
  {| conversation_context :=
       <[user_of rq := default ∅ (conversation_context w !! user_of rq)]>
         (conversation_context w);
     llm_calls := llm_calls w ++ [fallback_prompt w rq] |}.

(** The state after a fallback round trip that produced [reply]. *)
Definition answered (w : world) (rq : request) (reply : string) : world :=
  {| conversation_context :=
       <[user_of rq :=
           <["history" :=
               slice_last 10 (history_of w (user_of rq) ++
                              [user_entry (message_of rq); assistant_entry reply])]>
             (default ∅ (conversation_context w !! user_of rq))]>
         (conversation_context w);
     llm_calls := llm_calls w ++ [fallback_prompt w rq] |}.

(** A history made of pairs: a user entry, then an assistant entry. *)
Fixpoint alternating (l : list ChatMessage) : bool :=
  match l with
  | [] => true
  | u :: a :: rest =>
      bool_decide (role u = "user") && bool_decide (role a = "assistant") &&
      alternating rest
  | [_] => false
  end.

(** The reply of the greeting rule at a given hour. *)
Definition greeting (hour : nat) : string :=
  salutation hour +:+ nbsp +:+ "I'm Isvaryam's assistant. How can I help you?".

(** The rule catalogue in the words of the specification: ordered
    (intent, predicate) pairs over the lowercased text, the first
    satisfied predicate wins. *)
Definition greet_rule (t : string) : bool :=
  existsb (λ kw, Py.contains kw t) greet_keywords.
Definition price_rule (t : string) : bool := Py.contains "price" t.
Definition intent_rules : list (string * (string → bool)) :=
  [("greet", greet_rule); ("price", price_rule)].
Definition first_match (t : string) : option string :=
  fst <$> find (λ r, snd r t) intent_rules.

(** [CTX_SIZE], the context window handed to the model at start-up. *)
Definition CTX_SIZE : nat := 2048.

(** A lower bound on the tokens of a prompt under a byte-level
    tokenizer: the characters of its contents. *)
Definition char_count (prompt : list ChatMessage) : nat :=
  sum_list (String.length ∘ content <$> prompt).

(** Sample models and inputs. *)
Definition canned_llm : list completion_request → completion_request → result completion :=
  λ _ _, Ok {| choices :=
    [ {| message := assistant_entry "  Cold pressed coconut oil.
" |} ] |}.
Definition failing_llm : list completion_request → completion_request → result completion :=
  λ _ _, Raise (LlmError "model unavailable").

(** A model that answers with the text it was last sent. *)
Definition echo_llm : list completion_request → completion_request → result completion :=
  λ _ prompt, Ok {| choices :=
    [ {| message := assistant_entry (default "" (content <$> last (messages prompt))) |} ] |}.

Definition ask (user_id text : string) : request :=
  {| json_message := Some text; json_user_id := Some user_id |}.

(** Session ["u4"] with two earlier exchanges. *)
Definition u4_world : world :=
  {| conversation_context :=
       {[ "u4" := {[ "history" :=
            [user_entry "do you sell oils"; assistant_entry "Groundnut and coconut.";
             user_entry "is it organic"; assistant_entry "Yes."] ]} ]};
     llm_calls := [] |}.

(** Session ["u3"] after five fallback round trips: ten entries. *)
Definition u3_world : world :=
  serve echo_llm
    [(9, ask "u3" "q1"); (9, ask "u3" "q2"); (10, ask "u3" "q3");
     (10, ask "u3" "q4"); (11, ask "u3" "q5")] initial_world.

Definition long_text : string :=
  String.string_of_list_ascii (replicate 2049 (ascii_of_nat 97)).

(** [sub] occurs somewhere in [s]. *)
Definition occurs_in (sub s : string) : Prop :=
  ∃ before after, s = before +:+ sub +:+ after.

(** A served request whose message matches no intent rule. *)
Definition unmatched (ev : nat * request) : bool :=
  bool_decide (detect_intent (message_of ev.2) = None).

(** A model whose answer is white space only: a space, U+00A0, U+2003
    and a line feed. *)
Definition blank_llm : list completion_request → completion_request → result completion :=
  λ _ _, Ok {| choices :=
    [ {| message := assistant_entry (Py.bytes [32; 194; 160; 226; 128; 131; 10]) |} ] |}.

(** A model whose answer has U+00A0 before the text and U+2003 and a
    line feed after it. *)
Definition padded_llm : list completion_request → completion_request → result completion :=
  λ _ _, Ok {| choices :=
    [ {| message := assistant_entry
           (nbsp +:+ "hello  there" +:+ Py.bytes [226; 128; 131; 10]) |} ] |}.

(** No string of [T] is a proper prefix of another one. *)
Definition prefix_free (T : list string) : Prop :=
  ∀ w1 w2 z, w1 ∈ T → w2 ∈ T → w1 = w2 +:+ z → z = "".

Definition prefix_free_b (T : list string) : bool :=
  forallb (λ w1, forallb (λ w2, negb (Py.startswith w2 w1) || bool_decide (w1 = w2)) T) T.

(** * Proofs *)

(** ** Facts about the text primitives *)

Section TextFacts.

Implicit Types (s p sub w : string) (c : ascii) (T : list string).

Lemma app_String c s t : String c s +:+ t = String c (s +:+ t).
Proof. reflexivity. Qed.

Lemma app_assoc_s s t u : (s +:+ t) +:+ u = s +:+ t +:+ u.
Proof. induction s as [|c s IH]; [done|]. by rewrite !app_String, IH. Qed.

Lemma startswith_app p s : Py.startswith p (p +:+ s) = true.
Proof.
  induction p as [|a p IH]; [done|].
  rewrite app_String. simpl. by destruct (ascii_dec a a).
Qed.

Lemma startswith_inv p s :
  Py.startswith p s = true → ∃ rest, s = p +:+ rest.
Proof.
  revert s. induction p as [|a p IH]; intros s H.
  - by exists s.
  - destruct s as [|b s]; [done|]. simpl in H.
    destruct (ascii_dec a b) as [->|]; [|done].
    destruct (IH _ H) as [rest ->]. by exists rest.
Qed.

(** [sub in s] holds exactly when [s] splits around an occurrence. *)
Lemma contains_spec sub s :
  Py.contains sub s = true ↔ ∃ before after, s = before +:+ sub +:+ after.
Proof.
  split.
  - induction s as [|c s IH]; simpl; intros H.
    + apply orb_true_iff in H as [H|]; [|done].
      apply startswith_inv in H as [rest ->]. by exists "", rest.
    + apply orb_true_iff in H as [H|H].
      * apply startswith_inv in H as [rest ->]. by exists "", rest.
      * destruct (IH H) as (b & a & ->). by exists (String c b), a.
  - intros (before & after & ->).
    induction before as [|c b IH].
    + change ("" +:+ sub +:+ after) with (sub +:+ after).
      destruct (sub +:+ after) eqn:E; simpl; rewrite <- ?E;
        rewrite startswith_app; done.
    + rewrite app_String. simpl. rewrite IH. apply orb_true_r.
Qed.

Lemma app_empty_r s : s +:+ "" = s.
Proof. induction s as [|c s IH]; [done|]. by rewrite app_String, IH. Qed.

Lemma length_app_s s t :
  String.length (s +:+ t) = String.length s + String.length t.
Proof. induction s as [|c s IH]; [done|]. rewrite app_String. simpl. by rewrite IH. Qed.

Lemma removeprefix_spec p s r : Py.removeprefix p s = Some r ↔ s = p +:+ r.
Proof.
  revert s. induction p as [|a p IH]; intros s.
  - simpl. change ("" +:+ r) with r. split; [by intros [= ->] | by intros ->].
  - destruct s as [|b s]; simpl.
    + split; [done|]. rewrite app_String. done.
    + rewrite app_String. destruct (ascii_dec a b) as [->|Hne].
      * rewrite IH. split; [by intros -> | by intros [= ->]].
      * split; [done|]. by intros [= -> _].
Qed.

Lemma drop_token_Some T s r :
  Py.drop_token T s = Some r → ∃ w, w ∈ T ∧ s = w +:+ r.
Proof.
  unfold Py.drop_token. induction T as [|w T IH]; [done|]. simpl.
  destruct (Py.removeprefix w s) as [r'|] eqn:E; simpl.
  - intros [= ->]. exists w. split; [left|]. by apply removeprefix_spec.
  - intros (w' & Hin & ->)%IH. exists w'. split; [by right|done].
Qed.

Lemma drop_token_None T s :
  Py.drop_token T s = None ↔ ∀ w r, w ∈ T → s ≠ w +:+ r.
Proof.
  unfold Py.drop_token. induction T as [|w T IH]; simpl.
  - split; [|done]. intros _ w r Hin. by apply elem_of_nil in Hin.
  - destruct (Py.removeprefix w s) as [r'|] eqn:E; simpl.
    + split; [done|]. intros H. apply removeprefix_spec in E.
      exfalso. eapply H; [left|done].
    + rewrite IH. split.
      * intros H w' r [->|Hin]%elem_of_cons; [|by apply H].
        intros Hs%removeprefix_spec. congruence.
      * intros H w' r Hin. apply H. by right.
Qed.

Lemma lstrip_go_split T n s :
  ∃ l, s = l +:+ Py.lstrip_go T n s ∧ Py.star T l.
Proof.
  revert s. induction n as [|n IH]; intros s; simpl.
  - exists "". split; [done|constructor].
  - destruct (Py.drop_token T s) as [rest|] eqn:E.
    + apply drop_token_Some in E as (w & Hin & ->).
      destruct (IH rest) as (l & El & Hl).
      exists (w +:+ l). split; [|by constructor].
      rewrite app_assoc_s. by rewrite <- El.
    + exists "". split; [done|constructor].
Qed.

Lemma lstrip_go_done T n s :
  Forall (λ w, w ≠ "") T → String.length s ≤ n →
  Py.drop_token T (Py.lstrip_go T n s) = None.
Proof.
  intros HT. revert s. induction n as [|n IH]; intros s Hn; simpl.
  - destruct s; [|simpl in Hn; lia].
    apply drop_token_None. intros w r Hin E.
    rewrite Forall_forall in HT. apply (HT w Hin).
    destruct w; [done|]. by rewrite app_String in E.
  - destruct (Py.drop_token T s) as [rest|] eqn:E; [|done].
    apply IH. apply drop_token_Some in E as (w & Hin & ->).
    rewrite length_app_s in Hn.
    rewrite Forall_forall in HT. specialize (HT w Hin).
    destruct w; [done|]. simpl in Hn. lia.
Qed.

Lemma lstrip_go_fixed T n s :
  Py.drop_token T s = None → Py.lstrip_go T n s = s.
Proof. intros H. destruct n; simpl; [done|]. by rewrite H. Qed.

Lemma star_app T a b : Py.star T a → Py.star T b → Py.star T (a +:+ b).
Proof.
  induction 1 as [|w s Hin Hs IH]; intros Hb; [done|].
  rewrite app_assoc_s. constructor; auto.
Qed.

Lemma star_token T w : w ∈ T → Py.star T w.
Proof.
  intros Hin. rewrite <- (app_empty_r w). constructor; [done|constructor].
Qed.

Lemma reversed_app s t :
  Py.reversed (s +:+ t) = Py.reversed t +:+ Py.reversed s.
Proof.
  induction s as [|c s IH].
  - change ("" +:+ t) with t. simpl. by rewrite app_empty_r.
  - rewrite app_String. simpl. by rewrite IH, app_assoc_s.
Qed.

Lemma reversed_involutive s : Py.reversed (Py.reversed s) = s.
Proof.
  induction s as [|c s IH]; [done|]. simpl.
  rewrite reversed_app. simpl. by rewrite IH.
Qed.

Lemma length_reversed s : String.length (Py.reversed s) = String.length s.
Proof.
  induction s as [|c s IH]; [done|]. simpl.
  rewrite length_app_s. simpl. lia.
Qed.

Lemma star_reversed T s :
  Py.star (Py.reversed <$> T) s → Py.star T (Py.reversed s).
Proof.
  induction 1 as [|w s Hin Hs IH]; [constructor|].
  rewrite reversed_app. apply star_app; [done|].
  apply list_elem_of_fmap in Hin as (w' & -> & Hin).
  rewrite reversed_involutive. by apply star_token.
Qed.

(** Two prefixes of one string: one is a prefix of the other. *)
Lemma app_eq_prefix a x b y :
  a +:+ x = b +:+ y → (∃ z, a = b +:+ z) ∨ (∃ z, b = a +:+ z).
Proof.
  revert b. induction a as [|c a IH]; intros b E.
  - right. by exists b.
  - destruct b as [|d b]; [left; by eexists|].
    rewrite !app_String in E. injection E as -> E.
    destruct (IH _ E) as [[z ->]|[z ->]]; [left|right]; by exists z.
Qed.

Lemma star_cancel T l r :
  prefix_free T → Forall (λ w, w ≠ "") T →
  Py.star T l → Py.star T (l +:+ r) → Py.star T r.
Proof.
  intros Hpf Hne. induction 1 as [|w l Hin Hl IH]; [done|].
  rewrite app_assoc_s. intros H. apply IH.
  inversion H as [E|w2 s2 Hin2 Hs2 E].
  - rewrite Forall_forall in Hne. specialize (Hne w Hin).
    destruct w; [done|]. by rewrite app_String in E.
  - destruct (app_eq_prefix _ _ _ _ E) as [[z Hz]|[z Hz]].
    + pose proof (Hpf _ _ _ Hin2 Hin Hz) as ->. rewrite app_empty_r in Hz.
      subst w2. by apply String.app_inj in E as <-.
    + pose proof (Hpf _ _ _ Hin Hin2 Hz) as ->. rewrite app_empty_r in Hz.
      subst w2. by apply String.app_inj in E as <-.
Qed.

Lemma prefix_free_check T : prefix_free_b T = true → prefix_free T.
Proof.
  intros H w1 w2 z H1%list_elem_of_In H2%list_elem_of_In E.
  unfold prefix_free_b in H. rewrite forallb_forall in H.
  specialize (H w1 H1). rewrite forallb_forall in H. specialize (H w2 H2).
  rewrite E, startswith_app in H. simpl in H. apply bool_decide_eq_true in H.
  rewrite <- (app_empty_r w2) in H at 2. by apply String.app_inj in H.
Qed.

Lemma whitespace_prefix_free : prefix_free Py.whitespace.
Proof. apply prefix_free_check. vm_compute. reflexivity. Qed.

Lemma whitespace_nonempty : Forall (λ w, w ≠ "") Py.whitespace.
Proof. refine (bool_decide_unpack _ _). vm_compute. exact I. Qed.

Lemma reversed_whitespace_nonempty :
  Forall (λ w, w ≠ "") (Py.reversed <$> Py.whitespace).
Proof. refine (bool_decide_unpack _ _). vm_compute. exact I. Qed.

Lemma lstrip_split s : ∃ l, s = l +:+ Py.lstrip s ∧ Py.spaces l.
Proof. apply lstrip_go_split. Qed.

Lemma lstrip_done s : Py.drop_token Py.whitespace (Py.lstrip s) = None.
Proof. apply lstrip_go_done; [apply whitespace_nonempty | done]. Qed.

Lemma rstrip_split s : ∃ r, s = Py.rstrip s +:+ r ∧ Py.spaces r.
Proof.
  destruct (lstrip_go_split (Py.reversed <$> Py.whitespace)
              (String.length s) (Py.reversed s)) as (l & E & Hl).
  exists (Py.reversed l). split; [|by apply star_reversed].
  apply (f_equal Py.reversed) in E.
  by rewrite reversed_involutive, reversed_app in E.
Qed.

Lemma rstrip_done s :
  Py.drop_token (Py.reversed <$> Py.whitespace) (Py.reversed (Py.rstrip s)) = None.
Proof.
  unfold Py.rstrip. rewrite reversed_involutive.
  apply lstrip_go_done; [apply reversed_whitespace_nonempty|].
  by rewrite length_reversed.
Qed.

Lemma no_space_suffix s :
  Py.drop_token (Py.reversed <$> Py.whitespace) (Py.reversed s) = None ↔
  ∀ w rest, w ∈ Py.whitespace → s ≠ rest +:+ w.
Proof.
  rewrite drop_token_None. split.
  - intros H w rest Hin ->. apply (H (Py.reversed w) (Py.reversed rest)).
    + by apply list_elem_of_fmap_2.
    + apply reversed_app.
  - intros H w' r (w & -> & Hin)%list_elem_of_fmap E.
    apply (H w (Py.reversed r) Hin).
    apply (f_equal Py.reversed) in E.
    by rewrite reversed_involutive, reversed_app, reversed_involutive in E.
Qed.

(** [s.strip()] takes a run of white space characters off each end, and
    what is left neither begins nor ends with a white space character. *)
Lemma strip_spec s :
  (∃ l r, s = l +:+ Py.strip s +:+ r ∧ Py.spaces l ∧ Py.spaces r) ∧
  (∀ w rest, w ∈ Py.whitespace → Py.strip s ≠ w +:+ rest) ∧
  (∀ w rest, w ∈ Py.whitespace → Py.strip s ≠ rest +:+ w).
Proof.
  unfold Py.strip.
  destruct (lstrip_split s) as (l & El & Hl).
  destruct (rstrip_split (Py.lstrip s)) as (r & Er & Hr).
  split; [|split].
  - exists l, r. split; [|done]. by rewrite <- Er.
  - intros w rest Hin E.
    pose proof (lstrip_done s) as Hd. rewrite drop_token_None in Hd.
    apply (Hd w (rest +:+ r) Hin). rewrite Er at 1. rewrite E.
    apply app_assoc_s.
  - apply no_space_suffix, rstrip_done.
Qed.

Lemma strip_idem s : Py.strip (Py.strip s) = Py.strip s.
Proof.
  destruct (strip_spec s) as (_ & Hfirst & Hlast).
  unfold Py.strip at 1.
  assert (Py.lstrip (Py.strip s) = Py.strip s) as ->.
  { apply lstrip_go_fixed, drop_token_None. intros w r Hin. by apply Hfirst. }
  unfold Py.rstrip. rewrite lstrip_go_fixed by (by apply no_space_suffix).
  apply reversed_involutive.
Qed.

(** [s.strip()] is empty exactly for a run of white space characters. *)
Lemma strip_empty_iff s : Py.strip s = "" ↔ Py.spaces s.
Proof.
  split.
  - intros H. destruct (strip_spec s) as [(l & r & E & Hl & Hr) _].
    rewrite H in E. change ("" +:+ r) with r in E. rewrite E.
    by apply star_app.
  - intros Hs. destruct (lstrip_split s) as (l & El & Hl).
    assert (Py.lstrip s = "") as Hempty.
    { assert (Py.spaces (Py.lstrip s)) as Hrest.
      { apply (star_cancel _ l); [apply whitespace_prefix_free |
          apply whitespace_nonempty | done | by rewrite <- El]. }
      pose proof (lstrip_done s) as Hd. rewrite drop_token_None in Hd.
      inversion Hrest as [|w r Hin Hr E]; [done|].
      exfalso. by apply (Hd w r Hin). }
    unfold Py.strip. rewrite Hempty. reflexivity.
Qed.

End TextFacts.

(** ** Facts about the intent matcher *)

Lemma detect_intent_cases text :
  detect_intent text = Some "greet" ∨ detect_intent text = Some "price" ∨
  detect_intent text = None.
Proof.
  unfold detect_intent.
  destruct (existsb _ _); [by left|].
  destruct (Py.contains _ _); [right; by left | right; by right].
Qed.

Lemma salutation_nonempty hour : ∃ c s, salutation hour = String c s.
Proof.
  unfold salutation.
  destruct (hour <? 12)%nat; [by eexists _, _|].
  destruct (hour <? 17)%nat; by eexists _, _.
Qed.

Lemma handle_intents_greet hour text user_id :
  detect_intent text = Some "greet" →
  handle_intents hour text user_id =
    Some (salutation hour +:+ nbsp +:+ "I'm Isvaryam's assistant. How can I help you?").
Proof. intros H. unfold handle_intents. rewrite H. by rewrite decide_True. Qed.

Lemma handle_intents_price hour text user_id :
  detect_intent text = Some "price" →
  handle_intents hour text user_id =
    Some "Our price list is coming right up! (demo reply)".
Proof. intros H. unfold handle_intents. rewrite H. done. Qed.

Lemma handle_intents_none hour text user_id :
  detect_intent text = None → handle_intents hour text user_id = None.
Proof. intros H. unfold handle_intents. rewrite H. done. Qed.

(** The handler's truthiness test on the reply succeeds exactly when an
    intent was detected: both canned replies are non-empty. *)
Lemma handle_intents_truthy hour text user_id :
  Py.truthy (handle_intents hour text user_id) =
  bool_decide (detect_intent text ≠ None).
Proof.
  destruct (detect_intent_cases text) as [H|[H|H]].
  - rewrite (handle_intents_greet _ _ _ H), H.
    destruct (salutation_nonempty hour) as (c & s & ->). done.
  - rewrite (handle_intents_price _ _ _ H), H. done.
  - rewrite (handle_intents_none _ _ _ H), H. done.
Qed.

(** ** Facts about slices *)

Section SliceFacts.

Context {A : Type}.
Implicit Types (l : list A) (n : nat).

Lemma slice_last_length n l : length (slice_last n l) = length l `min` n.
Proof. unfold slice_last. rewrite length_drop. lia. Qed.

(** The slice is what remains once the oldest entries are taken off
    the front. *)
Lemma slice_last_split n l :
  l = take (length l - n) l ++ slice_last n l.
Proof. unfold slice_last. by rewrite take_drop. Qed.

Lemma slice_last_last n l x :
  0 < n → last (slice_last n (l ++ [x])) = Some x.
Proof.
  intros Hn. unfold slice_last. rewrite length_app. simpl.
  rewrite drop_app_le by lia. apply last_snoc.
Qed.

End SliceFacts.

(** ** Facts about the handler *)

Section HandlerFacts.

Variable llm : list completion_request → completion_request → result completion.

Implicit Types (w : world) (rq : request) (hour : nat).

Lemma chatbot_intent hour rq w :
  detect_intent (message_of rq) ≠ None →
  chatbot llm hour rq w =
    (Ok (default "" (handle_intents hour (message_of rq) (user_of rq))), w).
Proof.
  intros H. unfold chatbot. fold (message_of rq) (user_of rq). cbv zeta.
  rewrite handle_intents_truthy, bool_decide_eq_true_2 by done. done.
Qed.

Lemma llama_chat_unfold user_msg history w :
  llama_chat llm user_msg history w =
    let prompt := {| messages := history ++ [user_entry user_msg]; stream := false |} in
    let w' := {| conversation_context := conversation_context w;
                 llm_calls := llm_calls w ++ [prompt] |} in
    match llm (llm_calls w) prompt with
    | Raise e => (Raise e, w')
    | Ok res =>
        match choices res with
        | [] => (Raise IndexError, w')
        | c :: _ => (Ok (Py.strip (content (message c))), w')
        end
    end.
Proof.
  unfold llama_chat, bind, llm_create_chat_completion. cbv zeta.
  destruct (llm _ _) as [res|e]; [|done].
  by destruct (choices res).
Qed.

(** The fallback path, case by case on what the model does. *)
Lemma chatbot_fallback hour rq w :
  detect_intent (message_of rq) = None →
  chatbot llm hour rq w =
    match llm (llm_calls w) (fallback_prompt w rq) with
    | Raise e => (Raise e, asked w rq)
    | Ok res =>
        match choices res with
        | [] => (Raise IndexError, asked w rq)
        | c :: _ =>
            let reply := Py.strip (content (message c)) in
            (Ok reply, answered w rq reply)
        end
    end.
Proof.
  intros H. unfold chatbot. fold (message_of rq) (user_of rq). cbv zeta.
  rewrite handle_intents_truthy, bool_decide_eq_false_2 by (by rewrite H; intros []).
  unfold bind at 1. unfold context_getitem at 1.
  unfold asked, answered, fallback_prompt, history_of.
  destruct w as [ctx calls]. simpl.
  destruct (ctx !! user_of rq) as [d|] eqn:Hd; simpl.
  - unfold bind at 1. rewrite llama_chat_unfold. simpl.
    destruct (llm _ _) as [res|e]; [|by rewrite insert_id].
    destruct (choices res) as [|c cs]; [by rewrite insert_id|].
    destruct (d !! "history") as [h|] eqn:Hh; simpl.
    + unfold bind, session_setitem, context_getitem, bind, set_context, ret. simpl.
      rewrite Hd. simpl. rewrite lookup_insert_eq. simpl.
      by rewrite !insert_insert_eq.
    + unfold bind, session_setitem, context_getitem, bind, set_context, ret. simpl.
      rewrite Hd. done.
  - unfold bind at 1. rewrite llama_chat_unfold. simpl.
    rewrite lookup_empty. simpl.
    destruct (llm _ _) as [res|e]; [|done].
    destruct (choices res) as [|c cs]; [done|].
    unfold bind, session_setitem, context_getitem, bind, set_context, ret. simpl.
    rewrite lookup_insert_eq. simpl. by rewrite insert_insert_eq.
Qed.

End HandlerFacts.

(** ** Histories as sequences of user/assistant pairs *)

Section Alternating.

Implicit Types (l : list ChatMessage) (m : ChatMessage).

Lemma pair_ind (P : list ChatMessage → Prop) :
  P [] → (∀ m, P [m]) → (∀ u a l, P l → P (u :: a :: l)) → ∀ l, P l.
Proof.
  intros H0 H1 H2.
  assert (∀ l, P l ∧ ∀ m, P (m :: l)) as H.
  { induction l as [|x l [IH1 IH2]]; split; auto. }
  apply H.
Qed.

Lemma alternating_cons2 u a l :
  alternating (u :: a :: l) = true ↔
  role u = "user" ∧ role a = "assistant" ∧ alternating l = true.
Proof.
  simpl. rewrite !andb_true_iff, !bool_decide_eq_true. tauto.
Qed.

Lemma alternating_app l1 l2 :
  alternating l1 = true → alternating l2 = true → alternating (l1 ++ l2) = true.
Proof.
  induction l1 as [| m | u a l1 IH] using pair_ind; intros H1 H2; [done..|].
  apply alternating_cons2 in H1 as (Hu & Ha & H1).
  change ((u :: a :: l1) ++ l2) with (u :: a :: (l1 ++ l2)).
  apply alternating_cons2. auto.
Qed.

Lemma alternating_even l :
  alternating l = true → ∃ k, length l = 2 * k.
Proof.
  induction l as [| m | u a l IH] using pair_ind; intros H.
  - by exists 0.
  - done.
  - apply alternating_cons2 in H as (_ & _ & H).
    destruct (IH H) as [k Hk]. exists (S k). simpl. lia.
Qed.

Lemma alternating_drop l k :
  alternating l = true → alternating (drop (2 * k) l) = true.
Proof.
  revert l. induction k as [|k IH]; intros l H; [done|].
  destruct l as [|u [|a l]]; [done..|].
  apply alternating_cons2 in H as (_ & _ & H).
  replace (2 * S k) with (S (S (2 * k))) by lia. simpl. by apply IH.
Qed.

Lemma alternating_slice_last l :
  alternating l = true → alternating (slice_last 10 l) = true.
Proof.
  intros H. unfold slice_last.
  destruct (alternating_even _ H) as [k Hk].
  replace (length l - 10) with (2 * (k - 5)) by lia.
  by apply alternating_drop.
Qed.

(** Entry by entry: even positions are user entries, odd positions
    assistant entries. *)
Lemma alternating_lookup l i m :
  alternating l = true → l !! i = Some m →
  role m = if Nat.even i then "user" else "assistant".
Proof.
  revert i. induction l as [| x | u a l IH] using pair_ind; intros i H Hi.
  - done.
  - done.
  - apply alternating_cons2 in H as (Hu & Ha & H).
    destruct i as [|[|i]]; simpl in Hi.
    + by injection Hi as <-.
    + by injection Hi as <-.
    + change (Nat.even (S (S i))) with (Nat.even i). by apply IH.
Qed.

End Alternating.

(** ** The handler's effect on the histories *)

Section HistoryFacts.

Variable llm : list completion_request → completion_request → result completion.

Implicit Types (w : world) (rq : request) (hour : nat) (k : string).

Lemma history_of_asked w rq k : history_of (asked w rq) k = history_of w k.
Proof.
  unfold history_of, asked. simpl.
  destruct (decide (k = user_of rq)) as [->|Hne].
  - rewrite lookup_insert_eq. by destruct (conversation_context w !! user_of rq).
  - by rewrite lookup_insert_ne.
Qed.

Lemma history_of_answered w rq reply k :
  history_of (answered w rq reply) k =
    if decide (k = user_of rq)
    then slice_last 10 (history_of w k ++
                        [user_entry (message_of rq); assistant_entry reply])
    else history_of w k.
Proof.
  unfold history_of at 1. unfold answered. simpl.
  destruct (decide (k = user_of rq)) as [->|Hne].
  - rewrite lookup_insert_eq. simpl. by rewrite lookup_insert_eq.
  - by rewrite lookup_insert_ne.
Qed.

(** One request either leaves a history as it was or replaces it by the
    last ten entries of the history extended by one exchange. *)
Lemma chatbot_history_step hour rq w k :
  history_of (snd (chatbot llm hour rq w)) k = history_of w k ∨
  ∃ reply,
    history_of (snd (chatbot llm hour rq w)) k =
      slice_last 10 (history_of w k ++
                     [user_entry (message_of rq); assistant_entry reply]).
Proof.
  destruct (detect_intent (message_of rq)) as [i|] eqn:Hi.
  - left. rewrite chatbot_intent by (by rewrite Hi). done.
  - rewrite chatbot_fallback by done.
    destruct (llm _ _) as [res|e]; simpl; [|left; apply history_of_asked].
    destruct (choices res) as [|c cs]; simpl; [left; apply history_of_asked|].
    rewrite history_of_answered.
    destruct (decide _); [right; by eexists | by left].
Qed.

(** Whatever is served, every history stays made of user/assistant pairs
    and within ten entries. *)
Lemma serve_invariant evs w :
  (∀ k, alternating (history_of w k) = true ∧ length (history_of w k) ≤ 10) →
  ∀ k, alternating (history_of (serve llm evs w) k) = true ∧
       length (history_of (serve llm evs w) k) ≤ 10.
Proof.
  revert w. induction evs as [|[hour rq] evs IH]; intros w Hw; [done|].
  simpl. apply IH. intros k.
  destruct (chatbot_history_step hour rq w k) as [->|[reply ->]]; [apply Hw|].
  split.
  - apply alternating_slice_last, alternating_app; [apply Hw|done].
  - rewrite slice_last_length. lia.
Qed.

Lemma history_of_initial k : history_of initial_world k = [].
Proof. unfold history_of, initial_world. simpl. by rewrite lookup_empty. Qed.

End HistoryFacts.

(** ** The model on the scenarios of the specification *)

Example u4_history_length : length (history_of u4_world "u4") = 4.
Proof. vm_compute. reflexivity. Qed.

Example scenario3 :
  history_of (snd (chatbot canned_llm 9 (ask "u2" "tell me about coconut oil") initial_world)) "u2"
  = [user_entry "tell me about coconut oil"; assistant_entry "Cold pressed coconut oil."].
Proof. vm_compute. reflexivity. Qed.

Example strip_unicode_space :
  Py.strip (nbsp +:+ " hello  there" +:+ Py.bytes [226; 128; 131; 10; 227; 128; 128])
  = "hello  there".
Proof. vm_compute. reflexivity. Qed.

Example greeting_after_salutation :
  handle_intents 18 "hi" "u1" =
    Some ("Good evening 🌙" +:+ Py.bytes [194; 160] +:+
          "I'm Isvaryam's assistant. How can I help you?").
Proof. reflexivity. Qed.

Example scenario4 :
  length (history_of u3_world "u3") = 10 ∧
  history_of (snd (chatbot echo_llm 11 (ask "u3" "q6") u3_world)) "u3" =
    [user_entry "q2"; assistant_entry "q2"; user_entry "q3"; assistant_entry "q3";
     user_entry "q4"; assistant_entry "q4"; user_entry "q5"; assistant_entry "q5";
     user_entry "q6"; assistant_entry "q6"].
Proof. vm_compute. done. Qed.

Example scenario5 :
  chatbot failing_llm 9 (ask "u4" "tell me about coconut oil") u4_world =
    (Raise (LlmError "model unavailable"),
     {| conversation_context := conversation_context u4_world;
        llm_calls := [fallback_prompt u4_world (ask "u4" "tell me about coconut oil")] |}).
Proof. vm_compute. reflexivity. Qed.

(** * The claims *)

Section Claims.

Variable llm : list completion_request → completion_request → result completion.

Implicit Types (w : world) (rq : request) (hour : nat) (k : string).

(** C1.  A fallback round trip that succeeds, from any state (so at
    every step of any sequence of round trips): the history of the
    session then has [min (previous length + 2) 10] entries, at most
    ten, and it is what remains of the previous history followed by the
    new user and assistant entries once the oldest entries are taken
    off the front; no entry is reordered and no other session changes. *)
Theorem history_write_keeps_most_recent hour rq w res c cs :
  detect_intent (message_of rq) = None →
  llm (llm_calls w) (fallback_prompt w rq) = Ok res →
  choices res = c :: cs →
  ∃ reply w',
    chatbot llm hour rq w = (Ok reply, w') ∧
    let prev := history_of w (user_of rq) in
    let new := history_of w' (user_of rq) in
    length new = (length prev + 2) `min` 10 ∧
    length new ≤ 10 ∧
    (∃ evicted,
        prev ++ [user_entry (message_of rq); assistant_entry reply] = evicted ++ new ∧
        length evicted = length prev + 2 - 10) ∧
    (∀ k, k ≠ user_of rq → history_of w' k = history_of w k).
Proof.
  intros Hi Hres Hc.
  exists (Py.strip (content (message c))), (answered w rq (Py.strip (content (message c)))).
  split.
  { rewrite chatbot_fallback by done. by rewrite Hres, Hc. }
  cbv zeta. rewrite history_of_answered, decide_True by done.
  set (full := history_of w (user_of rq) ++ _).
  assert (length full = length (history_of w (user_of rq)) + 2) as Hfull.
  { unfold full. rewrite length_app. done. }
  repeat split.
  - rewrite slice_last_length. lia.
  - rewrite slice_last_length. lia.
  - exists (take (length full - 10) full). split.
    + apply slice_last_split.
    + rewrite length_take. lia.
  - intros k Hk. rewrite history_of_answered. by rewrite decide_False.
Qed.

(** C2 (amended).  When the model call of the fallback path fails, the
    handler does not catch the exception: the call ends with that
    exception and produces no reply.  The history of every session is
    left as it was, and the model was asked once. *)
Theorem generation_failure_propagates hour rq w e :
  detect_intent (message_of rq) = None →
  fst (llama_chat llm (message_of rq) (history_of w (user_of rq)) w) = Raise e →
  ∃ w',
    chatbot llm hour rq w = (Raise e, w') ∧
    (∀ k, history_of w' k = history_of w k) ∧
    llm_calls w' = llm_calls w ++ [fallback_prompt w rq].
Proof.
  intros Hi Hfail. exists (asked w rq).
  split; [|split; [apply history_of_asked | done]].
  rewrite chatbot_fallback by done.
  rewrite llama_chat_unfold in Hfail. cbv zeta in Hfail.
  fold (fallback_prompt w rq) in Hfail.
  destruct (llm _ _) as [res|e']; simpl in Hfail.
  - destruct (choices res); simpl in Hfail; [|done]. by injection Hfail as <-.
  - by injection Hfail as <-.
Qed.

(** C3.  A message that matches an intent rule is answered with the
    reply of the matcher and the state after the call is the state
    before it: no session dictionary is created or changed, no history
    is touched, and the model is not asked. *)
Theorem intent_reply_leaves_store hour rq w :
  detect_intent (message_of rq) ≠ None →
  ∃ reply,
    handle_intents hour (message_of rq) (user_of rq) = Some reply ∧
    chatbot llm hour rq w = (Ok reply, w) ∧
    conversation_context (snd (chatbot llm hour rq w)) = conversation_context w ∧
    (∀ k, history_of (snd (chatbot llm hour rq w)) k = history_of w k).
Proof.
  intros Hi. rewrite chatbot_intent by done.
  destruct (detect_intent_cases (message_of rq)) as [H|[H|H]]; [| |done].
  - rewrite (handle_intents_greet _ _ _ H). by eexists.
  - rewrite (handle_intents_price _ _ _ H). by eexists.
Qed.

(** C10.  After a fallback round trip that succeeds, the last entry of
    the session's stored history is the assistant entry whose content is
    the reply returned to the caller. *)
Theorem reply_is_last_stored_entry hour rq w res c cs :
  detect_intent (message_of rq) = None →
  llm (llm_calls w) (fallback_prompt w rq) = Ok res →
  choices res = c :: cs →
  ∃ reply w' m,
    chatbot llm hour rq w = (Ok reply, w') ∧
    last (history_of w' (user_of rq)) = Some m ∧
    role m = "assistant" ∧ content m = reply.
Proof.
  intros Hi Hres Hc.
  exists (Py.strip (content (message c))),
         (answered w rq (Py.strip (content (message c)))),
         (assistant_entry (Py.strip (content (message c)))).
  split; [|split; [|done]].
  { rewrite chatbot_fallback by done. by rewrite Hres, Hc. }
  rewrite history_of_answered, decide_True by done.
  rewrite (cons_middle (user_entry _)), (assoc_L (++)).
  apply slice_last_last. lia.
Qed.

(** C4 (amended).  The adapter does no trimming by token count: for
    every history and message, whatever a tokenizer makes of them, the
    one request it sends carries the whole history, every entry of it
    in order, followed by the user entry.  A prompt over the context
    window is therefore sent over the window. *)
Theorem prompt_is_never_trimmed (ntokens : list ChatMessage → nat)
    user_msg (history : list ChatMessage) w :
  ∃ prompt,
    llm_calls (snd (llama_chat llm user_msg history w)) = llm_calls w ++ [prompt] ∧
    messages prompt = history ++ [user_entry user_msg] ∧
    (∀ i m, history !! i = Some m → messages prompt !! i = Some m) ∧
    (CTX_SIZE < ntokens (history ++ [user_entry user_msg]) →
     CTX_SIZE < ntokens (messages prompt)).
Proof.
  exists {| messages := history ++ [user_entry user_msg]; stream := false |}.
  split; [|split; [done|split; [|done]]].
  - rewrite llama_chat_unfold. cbv zeta.
    destruct (llm _ _) as [res|e]; [|done]. by destruct (choices res).
  - intros i m Hm. simpl. by apply lookup_app_l_Some.
Qed.

(** C5.  [detect_intent] is the first match over the rules in their
    declaration order, greet before price; a text that satisfies both
    predicates is a greet, and the reply is the greeting, not the price
    reply. *)
Theorem first_declared_rule_wins hour text user_id :
  detect_intent text = first_match (Py.lower text) ∧
  (greet_rule (Py.lower text) = true →
   price_rule (Py.lower text) = true →
   detect_intent text = Some "greet" ∧
   handle_intents hour text user_id = Some (greeting hour) ∧
   handle_intents hour text user_id ≠
     Some "Our price list is coming right up! (demo reply)").
Proof.
  split.
  - unfold detect_intent. cbv zeta.
    fold (greet_rule (Py.lower text)) (price_rule (Py.lower text)).
    unfold first_match, intent_rules. simpl.
    destruct (greet_rule _); [done|]. by destruct (price_rule _).
  - intros Hg Hp.
    assert (detect_intent text = Some "greet") as H.
    { unfold detect_intent. cbv zeta. unfold greet_rule in Hg. by rewrite Hg. }
    split; [done|].
    rewrite (handle_intents_greet _ _ _ H). split; [done|].
    unfold salutation.
    destruct (hour <? 12)%nat; [done|]. by destruct (hour <? 17)%nat.
Qed.

(** C6.  [llama_chat] sends one request, not streaming, whose messages
    are the history followed by the user entry for the new message, and
    touches nothing else; when the model answers, the value returned is
    the content of the first choice without the white space at its two
    ends: the content is a run of white space characters, the reply,
    and a run of white space characters, and no white space character
    (the characters of [Py.whitespace]) begins or ends the reply. *)
Theorem llama_chat_prompt_and_strip user_msg (history : list ChatMessage) w :
  llm_calls (snd (llama_chat llm user_msg history w)) =
    llm_calls w ++ [ {| messages := history ++ [user_entry user_msg];
                         stream := false |} ] ∧
  conversation_context (snd (llama_chat llm user_msg history w)) =
    conversation_context w ∧
  (∀ res c cs,
     llm (llm_calls w) {| messages := history ++ [user_entry user_msg];
                          stream := false |} = Ok res →
     choices res = c :: cs →
     ∃ reply,
       fst (llama_chat llm user_msg history w) = Ok reply ∧
       (∃ l r, content (message c) = l +:+ reply +:+ r ∧
               Py.spaces l ∧ Py.spaces r) ∧
       (∀ sp rest, sp ∈ Py.whitespace → reply ≠ sp +:+ rest) ∧
       (∀ sp rest, sp ∈ Py.whitespace → reply ≠ rest +:+ sp)).
Proof.
  rewrite llama_chat_unfold. cbv zeta. split; [|split].
  - destruct (llm _ _) as [res|e]; [|done]. by destruct (choices res).
  - destruct (llm _ _) as [res|e]; [|done]. by destruct (choices res).
  - intros res c cs -> ->. exists (Py.strip (content (message c))).
    split; [done|]. apply strip_spec.
Qed.

(** C7.  The message ["hi"] is a greet at every hour: the reply begins
    with "Good morning" before 12, "Good afternoon" from 12 to 16 and
    "Good evening" from 17 on, and the state is the state before the
    call; started from the empty state the session's history keeps
    length 0. *)
Theorem hi_is_greeted_by_hour hour (user_id : option string) w :
  let rq := {| json_message := Some "hi"; json_user_id := user_id |} in
  detect_intent "hi" = Some "greet" ∧
  (∃ reply,
     chatbot llm hour rq w = (Ok reply, w) ∧
     (hour < 12 → Py.startswith "Good morning" reply = true) ∧
     (12 ≤ hour < 17 → Py.startswith "Good afternoon" reply = true) ∧
     (17 ≤ hour → Py.startswith "Good evening" reply = true)) ∧
  length (history_of initial_world (user_of rq)) = 0 ∧
  length (history_of (snd (chatbot llm hour rq initial_world)) (user_of rq)) = 0.
Proof.
  intros rq.
  assert (detect_intent (message_of rq) = Some "greet") as H by done.
  split; [done|]. split.
  - exists (greeting hour). split.
    + rewrite chatbot_intent by (by rewrite H).
      by rewrite (handle_intents_greet _ _ _ H).
    + unfold greeting, salutation. repeat split; intros Hh.
      * by rewrite (proj2 (Nat.ltb_lt _ _)) by lia.
      * rewrite (proj2 (Nat.ltb_ge _ _)), (proj2 (Nat.ltb_lt _ _)) by lia. done.
      * rewrite !(proj2 (Nat.ltb_ge _ _)) by lia. done.
  - rewrite chatbot_intent by (by rewrite H). simpl.
    by rewrite history_of_initial.
Qed.

(** C8.  A message whose lowercased form has "hi", "hello" or "hey"
    anywhere in it, inside a longer word too, is a greet: the handler
    answers with the greeting and leaves the state as it was, so neither
    the price rule nor the model is reached. *)
Theorem greeting_keyword_anywhere hour rq w kw before after :
  kw ∈ greet_keywords →
  Py.lower (message_of rq) = before +:+ kw +:+ after →
  detect_intent (message_of rq) = Some "greet" ∧
  chatbot llm hour rq w = (Ok (greeting hour), w) ∧
  llm_calls (snd (chatbot llm hour rq w)) = llm_calls w.
Proof.
  intros Hkw Hsplit.
  assert (detect_intent (message_of rq) = Some "greet") as H.
  { unfold detect_intent. cbv zeta.
    rewrite (proj2 (existsb_exists _ _)); [done|].
    exists kw. split; [by apply list_elem_of_In|].
    apply contains_spec. by exists before, after. }
  rewrite chatbot_intent by (by rewrite H).
  by rewrite (handle_intents_greet _ _ _ H).
Qed.

(** C9.  After any sequence of requests served from the start of the
    process, the history of every session has even length and its
    entries alternate: a user entry at each even position, an assistant
    entry at each odd one. *)
Theorem stored_history_alternates (events : list (nat * request)) k :
  let h := history_of (serve llm events initial_world) k in
  alternating h = true ∧
  (∃ n, length h = 2 * n) ∧
  (∀ i m, h !! i = Some m →
          role m = if Nat.even i then "user" else "assistant").
Proof.
  intros h.
  assert (alternating h = true) as H.
  { apply serve_invariant. intros k'. rewrite history_of_initial.
    split; [done | simpl; lia]. }
  split; [done|]. split.
  - by apply alternating_even.
  - intros i m. by apply alternating_lookup.
Qed.

End Claims.

(** ** The claims at concrete inputs *)

Lemma history_write_witness :
  ∃ reply w',
    chatbot echo_llm 11 (ask "u3" "q6") u3_world = (Ok reply, w') ∧
    length (history_of u3_world "u3") = 10 ∧
    length (history_of w' "u3") = 10 ∧
    ∃ evicted,
      history_of u3_world "u3" ++ [user_entry "q6"; assistant_entry reply] =
        evicted ++ history_of w' "u3" ∧
      length evicted = 2.
Proof.
  destruct (history_write_keeps_most_recent echo_llm 11 (ask "u3" "q6") u3_world
              _ _ _ eq_refl eq_refl eq_refl)
    as (reply & w' & Hrun & Hlen & _ & (evicted & Hsplit & Hev) & _).
  assert (length (history_of u3_world "u3") = 10) as H10 by (vm_compute; reflexivity).
  change (user_of (ask "u3" "q6")) with "u3" in *.
  exists reply, w'. split; [exact Hrun|]. split; [exact H10|].
  rewrite H10 in Hlen, Hev. split; [exact Hlen|].
  exists evicted. split; [exact Hsplit | exact Hev].
Defined.

Lemma generation_failure_counterexample :
  let rq := ask "u4" "tell me about coconut oil" in
  detect_intent (message_of rq) = None ∧
  fst (llama_chat failing_llm (message_of rq) (history_of u4_world (user_of rq)) u4_world)
    = Raise (LlmError "model unavailable") ∧
  fst (chatbot failing_llm 9 rq u4_world) = Raise (LlmError "model unavailable") ∧
  ¬ ∃ reply, fst (chatbot failing_llm 9 rq u4_world) = Ok reply ∧ reply ≠ "".
Proof.
  intros rq.
  assert (fst (chatbot failing_llm 9 rq u4_world) = Raise (LlmError "model unavailable"))
    as H by (vm_compute; reflexivity).
  split; [vm_compute; reflexivity|]. split; [vm_compute; reflexivity|].
  split; [exact H|]. intros (reply & Hr & _). rewrite H in Hr. discriminate.
Qed.

Lemma generation_failure_witness :
  ∃ w',
    chatbot failing_llm 9 (ask "u4" "tell me about coconut oil") u4_world =
      (Raise (LlmError "model unavailable"), w') ∧
    (∀ k, history_of w' k = history_of u4_world k).
Proof.
  destruct (generation_failure_propagates failing_llm 9
              (ask "u4" "tell me about coconut oil") u4_world
              (LlmError "model unavailable") eq_refl eq_refl)
    as (w' & Hrun & Hhist & _).
  exists w'. split; [exact Hrun | exact Hhist].
Defined.

Lemma intent_reply_witness :
  ∃ reply,
    handle_intents 9 "what is the price" "u1" = Some reply ∧
    chatbot canned_llm 9 (ask "u1" "what is the price") u4_world = (Ok reply, u4_world).
Proof.
  destruct (intent_reply_leaves_store canned_llm 9 (ask "u1" "what is the price") u4_world)
    as (reply & Hreply & Hrun & _).
  - vm_compute. discriminate.
  - exists reply. split; [exact Hreply | exact Hrun].
Defined.

Lemma reply_is_last_witness :
  ∃ reply w' m,
    chatbot canned_llm 9 (ask "u2" "tell me about coconut oil") initial_world
      = (Ok reply, w') ∧
    last (history_of w' "u2") = Some m ∧ role m = "assistant" ∧ content m = reply.
Proof.
  exact (reply_is_last_stored_entry canned_llm 9
           (ask "u2" "tell me about coconut oil") initial_world
           _ _ _ eq_refl eq_refl eq_refl).
Defined.

Lemma no_token_trimming_counterexample :
  let history := [user_entry long_text; assistant_entry "ok"] in
  let user_msg := "and coconut oil?" in
  let w' := snd (llama_chat canned_llm user_msg history initial_world) in
  CTX_SIZE < char_count (history ++ [user_entry user_msg]) ∧
  ¬ ∃ dropped kept prompt,
      history = dropped ++ kept ∧
      llm_calls w' = [prompt] ∧
      messages prompt = kept ++ [user_entry user_msg] ∧
      char_count (messages prompt) ≤ CTX_SIZE.
Proof.
  intros history user_msg w'.
  assert (CTX_SIZE < char_count (history ++ [user_entry user_msg])) as Hbig.
  { apply Nat.ltb_lt. vm_compute. reflexivity. }
  split; [exact Hbig|].
  intros (dropped & kept & prompt & _ & Hcalls & _ & Hfit).
  assert (llm_calls w' = [ {| messages := history ++ [user_entry user_msg];
                              stream := false |} ]) as Hsent.
  { unfold w'. rewrite llama_chat_unfold. reflexivity. }
  rewrite Hsent in Hcalls. injection Hcalls as <-. simpl messages in Hfit.
  apply Nat.lt_nge in Hbig. exact (Hbig Hfit).
Qed.

Lemma llama_chat_strip_witness :
  fst (llama_chat padded_llm "tell me more" [] initial_world) = Ok "hello  there" ∧
  ∃ l r,
    nbsp +:+ "hello  there" +:+ Py.bytes [226; 128; 131; 10] =
      l +:+ "hello  there" +:+ r ∧
    Py.spaces l ∧ Py.spaces r.
Proof.
  destruct (llama_chat_prompt_and_strip padded_llm "tell me more" [] initial_world)
    as (_ & _ & Hanswer).
  destruct (Hanswer _ _ _ eq_refl eq_refl) as (reply & Hrun & Hsplit & _).
  assert (reply = "hello  there") as ->.
  { assert (fst (llama_chat padded_llm "tell me more" [] initial_world)
            = Ok "hello  there") as Hval by (vm_compute; reflexivity).
    rewrite Hval in Hrun. by injection Hrun as <-. }
  split; [exact Hrun | exact Hsplit].
Defined.

Lemma first_declared_rule_witness :
  detect_intent "Hi, what is the price?" = Some "greet" ∧
  handle_intents 9 "Hi, what is the price?" "u1" = Some (greeting 9).
Proof.
  destruct (first_declared_rule_wins 9 "Hi, what is the price?" "u1") as [_ Hboth].
  destruct (Hboth eq_refl eq_refl) as (Hd & Hh & _).
  split; [exact Hd | exact Hh].
Defined.

Lemma shipping_price_witness :
  Py.contains "price" (Py.lower "SHIPPING Price") = true ∧
  detect_intent "SHIPPING Price" = Some "greet" ∧
  chatbot canned_llm 18 (ask "u1" "SHIPPING Price") initial_world =
    (Ok (greeting 18), initial_world).
Proof.
  destruct (greeting_keyword_anywhere canned_llm 18 (ask "u1" "SHIPPING Price")
              initial_world "hi" "s" "pping price")
    as (Hd & Hrun & _).
  - apply list_elem_of_here.
  - reflexivity.
  - split; [reflexivity|]. split; [exact Hd | exact Hrun].
Defined.

(** * Further properties *)

(** ** More on the text primitives *)

Lemma lower_char_idem c : Py.lower_char (Py.lower_char c) = Py.lower_char c.
Proof.
  destruct c as [[] [] [] [] [] [] [] []]; reflexivity.
Qed.

Lemma lower_idem s : Py.lower (Py.lower s) = Py.lower s.
Proof.
  induction s as [|c s IH]; [done|]. simpl. by rewrite lower_char_idem, IH.
Qed.

Lemma lower_app s t : Py.lower (s +:+ t) = Py.lower s +:+ Py.lower t.
Proof.
  induction s as [|c s IH]; [done|]. rewrite !app_String. simpl.
  by rewrite IH, app_String.
Qed.

Lemma contains_occurs sub s : Py.contains sub s = true ↔ occurs_in sub s.
Proof. apply contains_spec. Qed.

Lemma occurs_in_context sub s pre post :
  occurs_in sub s → occurs_in sub (pre +:+ s +:+ post).
Proof.
  intros (b & a & ->). exists (pre +:+ b), (a +:+ post).
  by rewrite !app_assoc_s.
Qed.

(** ** More on the intent matcher *)

Lemma greet_rule_occurs t :
  greet_rule t = true ↔ ∃ kw, kw ∈ greet_keywords ∧ occurs_in kw t.
Proof.
  unfold greet_rule. rewrite existsb_exists. split.
  - intros (kw & Hin & Hc). exists kw. split; [by apply list_elem_of_In|].
    by apply contains_occurs.
  - intros (kw & Hin & Hc). exists kw. split; [by apply list_elem_of_In|].
    by apply contains_occurs.
Qed.

Lemma detect_intent_by_rules text :
  detect_intent text =
    if greet_rule (Py.lower text) then Some "greet"
    else if price_rule (Py.lower text) then Some "price" else None.
Proof. reflexivity. Qed.

Lemma detect_intent_by_occurrence text :
  (detect_intent text = Some "greet" ↔
     ∃ kw, kw ∈ greet_keywords ∧ occurs_in kw (Py.lower text)) ∧
  (detect_intent text = Some "price" ↔
     occurs_in "price" (Py.lower text) ∧
     ¬ ∃ kw, kw ∈ greet_keywords ∧ occurs_in kw (Py.lower text)) ∧
  (detect_intent text = None ↔
     ¬ occurs_in "price" (Py.lower text) ∧
     ¬ ∃ kw, kw ∈ greet_keywords ∧ occurs_in kw (Py.lower text)).
Proof.
  rewrite detect_intent_by_rules.
  rewrite <- greet_rule_occurs, <- (contains_occurs "price" (Py.lower text)).
  fold (price_rule (Py.lower text)).
  destruct (greet_rule _), (price_rule _); intuition congruence.
Qed.

(** X2.  Matching does not depend on letter case: lowercasing the
    message before it is handed over changes neither the intent found
    nor the reply. *)
Theorem detect_intent_ignores_case hour text user_id :
  detect_intent (Py.lower text) = detect_intent text ∧
  handle_intents hour (Py.lower text) user_id = handle_intents hour text user_id.
Proof.
  assert (detect_intent (Py.lower text) = detect_intent text) as H.
  { unfold detect_intent. by rewrite lower_idem. }
  split; [done|]. unfold handle_intents. by rewrite H.
Qed.

(** X3.  An intent found in a text is not lost when text is put before
    or after it: a greet stays a greet, and a text with an intent never
    becomes a text without one (a price may become a greet). *)
Theorem intent_survives_context text pre post :
  detect_intent text ≠ None →
  detect_intent (pre +:+ text +:+ post) ≠ None ∧
  (detect_intent text = Some "greet" →
   detect_intent (pre +:+ text +:+ post) = Some "greet").
Proof.
  intros Hsome.
  pose proof (detect_intent_by_occurrence text) as (Hg & Hp & Hn).
  pose proof (detect_intent_by_occurrence (pre +:+ text +:+ post)) as (Hg' & Hp' & Hn').
  rewrite !lower_app in Hg', Hp', Hn'.
  assert (∀ kw, occurs_in kw (Py.lower text) →
                occurs_in kw (Py.lower pre +:+ Py.lower text +:+ Py.lower post))
    as Hctx by (intros kw; apply occurs_in_context).
  split.
  - intros Hnone. apply Hn' in Hnone as [Hnp Hng]. apply Hsome, Hn. split.
    + intros Ho. by apply Hnp, Hctx.
    + intros (kw & Hin & Ho). apply Hng. exists kw. split; [done|]. by apply Hctx.
  - intros (kw & Hin & Ho)%Hg. apply Hg'. exists kw. split; [done|]. by apply Hctx.
Qed.

Lemma intent_survives_context_witness :
  detect_intent "price" = Some "price" ∧
  detect_intent ("oh hi, " +:+ "price" +:+ " please") = Some "greet" ∧
  detect_intent ("the " +:+ "price" +:+ " please") ≠ None.
Proof.
  split; [reflexivity|]. split; [reflexivity|].
  apply (intent_survives_context "price" "the " " please"). discriminate.
Defined.

(** ** More on the handler *)

Section MoreHandlerFacts.

Variable llm : list completion_request → completion_request → result completion.

Implicit Types (w : world) (rq : request) (hour : nat) (k : string).

(** The three ways a request can end. *)
Lemma chatbot_step_cases hour rq w :
  (detect_intent (message_of rq) ≠ None ∧ snd (chatbot llm hour rq w) = w) ∨
  (detect_intent (message_of rq) = None ∧
   snd (chatbot llm hour rq w) = asked w rq) ∨
  (detect_intent (message_of rq) = None ∧
   ∃ text, snd (chatbot llm hour rq w) = answered w rq (Py.strip text)).
Proof.
  destruct (detect_intent (message_of rq)) as [i|] eqn:Hi.
  - left. split; [done|]. rewrite chatbot_intent by (by rewrite Hi). done.
  - right. rewrite chatbot_fallback by done.
    destruct (llm _ _) as [res|e]; [|by left].
    destruct (choices res) as [|c cs]; [by left|].
    right. split; [done|]. by eexists.
Qed.

Lemma context_asked w rq k :
  conversation_context (asked w rq) !! k =
    if decide (k = user_of rq)
    then Some (default ∅ (conversation_context w !! k))
    else conversation_context w !! k.
Proof.
  unfold asked. simpl. destruct (decide (k = user_of rq)) as [->|Hne].
  - by rewrite lookup_insert_eq.
  - by rewrite lookup_insert_ne.
Qed.

Lemma serve_snoc events hour rq w :
  serve llm (events ++ [(hour, rq)]) w =
    snd (chatbot llm hour rq (serve llm events w)).
Proof.
  revert w. induction events as [|[h r] events IH]; intros w; [done|].
  simpl. apply IH.
Qed.

(** X5.  On the fallback path the reply is the empty string exactly
    when the content the model returned is a run of white space
    characters (the characters of [Py.whitespace]); that empty reply is
    returned and stored as the assistant entry like any other. *)
Theorem blank_completion_gives_empty_reply hour rq w res c cs :
  detect_intent (message_of rq) = None →
  llm (llm_calls w) (fallback_prompt w rq) = Ok res →
  choices res = c :: cs →
  ∃ reply w',
    chatbot llm hour rq w = (Ok reply, w') ∧
    (reply = "" ↔ Py.spaces (content (message c))) ∧
    last (history_of w' (user_of rq)) = Some (assistant_entry reply).
Proof.
  intros Hi Hres Hc.
  exists (Py.strip (content (message c))),
         (answered w rq (Py.strip (content (message c)))).
  split; [|split].
  - rewrite chatbot_fallback by done. by rewrite Hres, Hc.
  - apply strip_empty_iff.
  - rewrite history_of_answered, decide_True by done.
    rewrite (cons_middle (user_entry _)), (assoc_L (++)).
    apply slice_last_last. lia.
Qed.

End MoreHandlerFacts.

Lemma blank_completion_witness :
  ∃ w',
    chatbot blank_llm 9 (ask "u5" "tell me about coconut oil") initial_world = (Ok "", w') ∧
    last (history_of w' "u5") = Some (assistant_entry "").
Proof.
  destruct (blank_completion_gives_empty_reply blank_llm 9
              (ask "u5" "tell me about coconut oil") initial_world
              _ _ _ eq_refl eq_refl eq_refl)
    as (reply & w' & Hrun & Hempty & Hlast).
  assert (reply = "") as ->.
  { apply Hempty. apply strip_empty_iff. vm_compute. reflexivity. }
  exists w'. split; [exact Hrun | exact Hlast].
Defined.

(** ** Sequences of requests *)

Section ServeFacts.

Variable llm : list completion_request → completion_request → result completion.

Implicit Types (w : world) (rq : request) (hour : nat) (k : string).
Implicit Types (events : list (nat * request)).

Lemma slice_last_app_r {A} n (h t : list A) :
  slice_last (n + length t) (h ++ t) = slice_last n h ++ t.
Proof.
  unfold slice_last. rewrite length_app.
  replace (length h + length t - (n + length t)) with (length h - n) by lia.
  rewrite drop_app_le by lia. done.
Qed.

Lemma Forall_slice_last {A} (P : A → Prop) n (l : list A) :
  Forall P l → Forall P (slice_last n l).
Proof. apply Forall_drop. Qed.

(** A property of entries that holds of what a round trip appends is
    kept by every history. *)
Lemma serve_Forall (P : ChatMessage → Prop) events w :
  (∀ msg text, detect_intent msg = None →
               P (user_entry msg) ∧ P (assistant_entry (Py.strip text))) →
  (∀ k, Forall P (history_of w k)) →
  ∀ k, Forall P (history_of (serve llm events w) k).
Proof.
  intros Hnew. revert w. induction events as [|[hour rq] events IH]; intros w Hw; [done|].
  simpl. apply IH. intros k.
  destruct (chatbot_step_cases llm hour rq w) as [[_ ->]|[[_ ->]|[Hi [text ->]]]].
  - apply Hw.
  - rewrite history_of_asked. apply Hw.
  - rewrite history_of_answered. destruct (decide _); [|apply Hw].
    apply Forall_slice_last, Forall_app. split; [apply Hw|].
    destruct (Hnew (message_of rq) text Hi). by repeat constructor.
Qed.

Lemma chatbot_other_session hour rq w k :
  k ≠ user_of rq →
  conversation_context (snd (chatbot llm hour rq w)) !! k = conversation_context w !! k.
Proof.
  intros Hk.
  destruct (chatbot_step_cases llm hour rq w) as [[_ ->]|[[_ ->]|[_ [text ->]]]].
  - done.
  - by rewrite context_asked, decide_False.
  - unfold answered. simpl. by rewrite lookup_insert_ne.
Qed.

Lemma chatbot_llm_calls hour rq w :
  llm_calls (snd (chatbot llm hour rq w)) =
    if unmatched (hour, rq) then llm_calls w ++ [fallback_prompt w rq]
    else llm_calls w.
Proof.
  unfold unmatched. simpl.
  destruct (chatbot_step_cases llm hour rq w) as [[Hi ->]|[[Hi ->]|[Hi [text ->]]]].
  - by rewrite bool_decide_eq_false_2.
  - by rewrite bool_decide_eq_true_2.
  - by rewrite bool_decide_eq_true_2.
Qed.

Lemma chatbot_dom hour rq w :
  dom (conversation_context (snd (chatbot llm hour rq w))) =
    if unmatched (hour, rq)
    then {[user_of rq]} ∪ dom (conversation_context w)
    else dom (conversation_context w).
Proof.
  unfold unmatched. simpl.
  destruct (chatbot_step_cases llm hour rq w) as [[Hi ->]|[[Hi ->]|[Hi [text ->]]]].
  - by rewrite bool_decide_eq_false_2.
  - rewrite bool_decide_eq_true_2 by done. unfold asked. simpl.
    by rewrite dom_insert_L.
  - rewrite bool_decide_eq_true_2 by done. unfold answered. simpl.
    by rewrite dom_insert_L.
Qed.

(** X6.  In the histories built by serving requests from the start of
    the process, every assistant entry holds a stripped text: its
    content has no white space at either end. *)
Theorem assistant_entries_are_stripped events k :
  Forall (λ m, role m = "assistant" → Py.strip (content m) = content m)
         (history_of (serve llm events initial_world) k).
Proof.
  apply serve_Forall.
  - intros msg text _. split; [done|]. intros _. apply strip_idem.
  - intros k'. by rewrite history_of_initial.
Qed.

(** X7.  In the histories built by serving requests from the start of
    the process, no user entry matches an intent rule: a message
    answered by the keyword matcher is never part of the conversation
    memory. *)
Theorem stored_user_entries_have_no_intent events k :
  Forall (λ m, role m = "user" → detect_intent (content m) = None)
         (history_of (serve llm events initial_world) k).
Proof.
  apply serve_Forall.
  - intros msg text Hi. split; [by intros _|done].
  - intros k'. by rewrite history_of_initial.
Qed.

(** X8.  Requests of other users leave a session alone: when no served
    request carries the user id [k], the session dictionary of [k] and
    its history are after the sequence what they were before, whatever
    those requests did and however they ended. *)
Theorem other_users_leave_session_alone events w k :
  Forall (λ ev, user_of ev.2 ≠ k) events →
  conversation_context (serve llm events w) !! k = conversation_context w !! k ∧
  history_of (serve llm events w) k = history_of w k.
Proof.
  intros Hev.
  assert (conversation_context (serve llm events w) !! k = conversation_context w !! k) as H.
  { revert w. induction Hev as [|[hour rq] events Hne Hev IH]; intros w; [done|].
    simpl. rewrite IH. apply chatbot_other_session. by intros ->. }
  split; [done|]. unfold history_of. by rewrite H.
Qed.

(** X9.  The model is asked once for every request that matches no
    intent rule and never for one that does, also after failures: the
    log of calls grows by as many prompts as there are unmatched
    requests, and what was logged before stays. *)
Theorem one_model_call_per_unmatched_request events w :
  ∃ new,
    llm_calls (serve llm events w) = llm_calls w ++ new ∧
    length new = length (List.filter unmatched events).
Proof.
  revert w. induction events as [|[hour rq] events IH]; intros w.
  - exists []. by rewrite app_nil_r.
  - simpl. destruct (IH (snd (chatbot llm hour rq w))) as (new & -> & Hlen).
    rewrite chatbot_llm_calls. destruct (unmatched (hour, rq)).
    + exists (fallback_prompt w rq :: new). split.
      * by rewrite <- app_assoc.
      * simpl. by rewrite Hlen.
    + by exists new.
Qed.

(** X10.  Every prompt sent to the model while serving requests from the
    start of the process asks for no streaming, has at most eleven
    messages, and is a sequence of user/assistant pairs followed by one
    user entry. *)
Theorem prompts_are_well_formed events :
  Forall (λ p, stream p = false ∧ length (messages p) ≤ 11 ∧
               ∃ h msg, messages p = h ++ [user_entry msg] ∧ alternating h = true)
         (llm_calls (serve llm events initial_world)).
Proof.
  induction events as [|[hour rq] events IH] using rev_ind; [by constructor|].
  rewrite serve_snoc, chatbot_llm_calls.
  destruct (unmatched (hour, rq)); [|done].
  apply Forall_app. split; [done|]. constructor; [|done].
  destruct (serve_invariant llm events initial_world) with (k := user_of rq)
    as [Halt Hlen].
  { intros k'. rewrite history_of_initial. split; [done | simpl; lia]. }
  split; [done|]. split.
  - simpl. rewrite length_app. simpl. lia.
  - by eexists _, _.
Qed.

(** X11.  The set of user ids with a session dictionary only grows: after
    a sequence of requests it is the set before, together with the user
    ids of the requests that matched no intent rule, including those
    whose model call failed. *)
Theorem sessions_are_created_never_dropped events w :
  dom (conversation_context (serve llm events w)) =
    dom (conversation_context w) ∪
    list_to_set ((λ ev, user_of ev.2) <$> List.filter unmatched events).
Proof.
  revert w. induction events as [|[hour rq] events IH]; intros w.
  - simpl. set_solver.
  - simpl. rewrite IH, chatbot_dom. destruct (unmatched (hour, rq)); simpl.
    + set_solver.
    + done.
Qed.

(** With a model that always answers, the history of a session that is
    within ten entries grows by two per unmatched request of its user,
    up to ten. *)
Lemma serve_history_length events w k :
  (∀ calls p, ∃ res c cs, llm calls p = Ok res ∧ choices res = c :: cs) →
  length (history_of w k) ≤ 10 →
  length (history_of (serve llm events w) k) =
    (length (history_of w k) +
     2 * length (List.filter (λ ev, unmatched ev && bool_decide (user_of ev.2 = k)) events))
    `min` 10.
Proof.
  intros Hllm. revert w. induction events as [|[hour rq] events IH]; intros w Hw.
  - simpl. lia.
  - cbn [serve List.filter].
    set (mine := λ ev : nat * request, unmatched ev && bool_decide (user_of ev.2 = k)) in *.
    change (unmatched (hour, rq)) with
      (bool_decide (detect_intent (message_of rq) = None)).
    change ((hour, rq).2) with rq.
    destruct (detect_intent (message_of rq)) as [i|] eqn:Hi.
    + rewrite (bool_decide_eq_false_2 (Some i = None)) by done. cbn [andb].
      rewrite chatbot_intent by (by rewrite Hi). by apply IH.
    + rewrite (bool_decide_eq_true_2 (None = None)) by done. cbn [andb].
      rewrite chatbot_fallback by done.
      destruct (Hllm (llm_calls w) (fallback_prompt w rq)) as (res & c & cs & -> & ->).
      cbn [snd]. rewrite IH; rewrite history_of_answered.
      * destruct (decide (k = user_of rq)) as [->|Hne].
        -- rewrite (bool_decide_eq_true_2 (user_of rq = user_of rq)) by done.
           rewrite slice_last_length, length_app. cbn [length]. lia.
        -- rewrite (bool_decide_eq_false_2 (user_of rq = k)) by (by intros <-). done.
      * destruct (decide (k = user_of rq)); [|done].
        rewrite slice_last_length. lia.
Qed.

(** X12.  When the model always answers with at least one choice, the
    history of a session after a sequence of requests served from the
    start of the process has [min (2 n) 10] entries, where [n] counts
    the requests of that user that matched no intent rule. *)
Theorem history_length_counts_round_trips events k :
  (∀ calls p, ∃ res c cs, llm calls p = Ok res ∧ choices res = c :: cs) →
  length (history_of (serve llm events initial_world) k) =
    (2 * length (List.filter (λ ev, unmatched ev && bool_decide (user_of ev.2 = k)) events))
    `min` 10.
Proof.
  intros Hllm. rewrite serve_history_length by (by rewrite ?history_of_initial; simpl; try lia).
  by rewrite history_of_initial.
Qed.

(** X13.  Conversation memory: after a fallback round trip that
    succeeds, the next unmatched request of the same user sends a prompt
    that ends with the user entry and the assistant entry of that round
    trip followed by the new user entry, after at most eight older
    entries. *)
Theorem next_prompt_carries_last_exchange hour1 hour2 rq1 rq2 w res c cs :
  detect_intent (message_of rq1) = None →
  llm (llm_calls w) (fallback_prompt w rq1) = Ok res →
  choices res = c :: cs →
  detect_intent (message_of rq2) = None →
  user_of rq2 = user_of rq1 →
  ∃ older,
    llm_calls (serve llm [(hour1, rq1); (hour2, rq2)] w) =
      llm_calls w ++
      [fallback_prompt w rq1;
       {| messages := older ++ [user_entry (message_of rq1);
                                assistant_entry (Py.strip (content (message c)));
                                user_entry (message_of rq2)];
          stream := false |}] ∧
    length older ≤ 8 ∧
    older = slice_last 8 (history_of w (user_of rq1)).
Proof.
  intros Hi1 Hres Hc Hi2 Hu.
  exists (slice_last 8 (history_of w (user_of rq1))).
  split; [|split; [rewrite slice_last_length; lia | done]].
  simpl. rewrite chatbot_llm_calls. unfold unmatched. simpl.
  rewrite bool_decide_eq_true_2 by done.
  rewrite chatbot_fallback by done. rewrite Hres, Hc. simpl.
  rewrite <- app_assoc. simpl. do 3 f_equal.
  unfold fallback_prompt. rewrite Hu, history_of_answered, decide_True by done.
  f_equal.
  rewrite (slice_last_app_r 8 _ [_; _]). by rewrite <- app_assoc.
Qed.

End ServeFacts.

Lemma other_users_witness :
  history_of
    (serve failing_llm [(9, ask "u1" "tell me more"); (9, ask "u2" "hi")] u4_world) "u4"
  = history_of u4_world "u4".
Proof.
  apply (other_users_leave_session_alone failing_llm
           [(9, ask "u1" "tell me more"); (9, ask "u2" "hi")] u4_world "u4").
  repeat constructor; discriminate.
Defined.

Lemma history_length_witness :
  length (history_of
    (serve canned_llm
       [(9, ask "u1" "tell me more"); (9, ask "u1" "hi"); (9, ask "u2" "and then?");
        (9, ask "u1" "go on")] initial_world) "u1") = 4.
Proof.
  apply (history_length_counts_round_trips canned_llm
           [(9, ask "u1" "tell me more"); (9, ask "u1" "hi"); (9, ask "u2" "and then?");
            (9, ask "u1" "go on")] "u1").
  intros calls p. by eexists _, _, _.
Defined.

Lemma next_prompt_witness :
  ∃ older,
    llm_calls (serve echo_llm [(9, ask "u3" "q6"); (9, ask "u3" "q7")] u3_world) =
      llm_calls u3_world ++
      [fallback_prompt u3_world (ask "u3" "q6");
       {| messages := older ++ [user_entry "q6"; assistant_entry "q6"; user_entry "q7"];
          stream := false |}] ∧
    length older ≤ 8.
Proof.
  destruct (next_prompt_carries_last_exchange echo_llm 9 9
              (ask "u3" "q6") (ask "u3" "q7") u3_world
              _ _ _ eq_refl eq_refl eq_refl eq_refl eq_refl)
    as (older & Hcalls & Hlen & _).
  exists older. split; [exact Hcalls | exact Hlen].
Defined.

(** ** Bounds *)

Section Outcomes.

Variable llm : list completion_request → completion_request → result completion.

Implicit Types (w : world) (rq : request) (hour : nat) (k : string).

(** X15.  No sequence of requests makes a history longer than ten
    entries: after it, a history has at most ten entries, or at most the
    entries it had before when those were more. *)
Theorem history_never_grows_past_cap (events : list (nat * request)) w k :
  length (history_of (serve llm events w) k) ≤ length (history_of w k) `max` 10.
Proof.
  revert w. induction events as [|[hour rq] events IH]; intros w; [simpl; lia|].
  simpl. etrans; [apply IH|].
  destruct (chatbot_history_step llm hour rq w k) as [->|[reply ->]]; [lia|].
  rewrite slice_last_length. lia.
Qed.

End Outcomes.
